(** * stcal.alignment.resample_utils: the pixel-map computation

    A shallow embedding of [calc_pixmap] from
    [src/stcal/alignment/resample_utils.py] and the properties of it that
    the specification states.

    The function composes three collaborators that live outside the file
    ([util.wcs_bbox_from_shape], [gwcs.wcstools.grid_from_bounding_box],
    [util.reproject]) and numpy's [dstack].  Collaborators are Python
    callables: they may raise, and they may read and change interpreter
    state that [calc_pixmap] never sees.  They are therefore taken as
    section variables of a type that threads an opaque [World] and returns
    either a value or a Python exception. *)

From Stdlib Require Import String Bool Arith ZArith QArith Qround Qabs Lia List.
Import ListNotations.

Close Scope Q_scope.
Open Scope string_scope.
Open Scope list_scope.
Open Scope nat_scope.

Set Implicit Arguments.

(** ** Python exceptions and results *)

Inductive exn : Type :=
| AttributeError (msg : string)
| TypeError (msg : string)
| ValueError (msg : string)
| IndexError (msg : string)
| OtherError (cls msg : string).

Inductive result (A : Type) : Type :=
| Ok (a : A)
| Raise (e : exn).

Arguments Ok {A} a.
Arguments Raise {A} e.

Definition rbind {A B} (r : result A) (k : A -> result B) : result B :=
  match r with
  | Ok a => k a
  | Raise e => Raise e
  end.

(** Sequencing a fallible function over a list, left to right; the first
    exception wins. *)
Fixpoint mapM {A B} (f : A -> result B) (l : list A) : result (list B) :=
  match l with
  | [] => Ok []
  | a :: l' =>
      match f a with
      | Raise e => Raise e
      | Ok b =>
          match mapM f l' with
          | Raise e => Raise e
          | Ok bs => Ok (b :: bs)
          end
      end
  end.

(** ** Python values that reach the [shape] parameter

    [shape] is documented as an optional tuple; [in_wcs.pixel_shape] is a
    tuple or [None].  A few other values are kept so that truthiness
    ([if shape:]) is not trivial. *)

Inductive value : Type :=
| VNone
| VBool (b : bool)
| VInt (n : Z)
| VTuple (items : list Z)
| VList (items : list Z).

(** Python truth value testing on these values. *)
Definition truthy (v : value) : bool :=
  match v with
  | VNone => false
  | VBool b => b
  | VInt n => negb (n =? 0)%Z
  | VTuple items | VList items =>
      match items with
      | [] => false
      | _ :: _ => true
      end
  end.

(** ** numpy arrays and [numpy.dstack] *)

Module np.
Section Arrays.
Context {F : Type}.

(** An n-dimensional array: its shape and its elements in row-major
    (C) order. *)
Record ndarray : Type := array { shape : list nat; data : list F }.

Definition size_of (s : list nat) : nat := fold_right Nat.mul 1 s.

Definition wf (a : ndarray) : Prop := length (data a) = size_of (shape a).

(** [numpy.atleast_3d]: a 0-d array becomes (1,1,1), a 1-d array of
    length N becomes (1,N,1), a 2-d array (M,N) becomes (M,N,1); arrays
    of three or more dimensions are unchanged. *)
Definition atleast_3d (a : ndarray) : ndarray :=
  match shape a with
  | [] => array [1; 1; 1] (data a)
  | [n] => array [1; n; 1] (data a)
  | [m; n] => array [m; n; 1] (data a)
  | _ => a
  end.

(** The first [k] consecutive blocks of [n] elements of [l]. *)
Fixpoint chunks (k n : nat) (l : list F) : list (list F) :=
  match k with
  | O => []
  | S k' => firstn n l :: chunks k' n (skipn n l)
  end.

Fixpoint zip_app (xs ys : list (list F)) : list (list F) :=
  match xs, ys with
  | x :: xs', y :: ys' => (x ++ y) :: zip_app xs' ys'
  | _, _ => []
  end.

(** Shapes that [concatenate(..., axis=2)] accepts together: same number
    of dimensions, and equal extents on every axis but the third. *)
Definition same_but_axis2 (s0 s : list nat) : bool :=
  match s0, s with
  | n0 :: n1 :: _ :: tl0, m0 :: m1 :: _ :: tl =>
      (n0 =? m0) && (n1 =? m1) &&
      if list_eq_dec Nat.eq_dec tl0 tl then true else false
  | _, _ => false
  end.

Definition axis2 (s : list nat) : nat := nth 2 s 0.

(** The blocks of [a] along the first two axes: one block per index
    pair (i, j), holding a[i, j, ...]. *)
Definition blocks (a : ndarray) : list (list F) :=
  match shape a with
  | n0 :: n1 :: n2 :: tl => chunks (n0 * n1) (n2 * size_of tl) (data a)
  | _ => []
  end.

(** [numpy.concatenate(arrs, axis=2)] on arrays of at least three
    dimensions. *)
Definition concatenate2 (arrs : list ndarray) : result ndarray :=
  match arrs with
  | [] => Raise (ValueError "need at least one array to concatenate")
  | a0 :: rest =>
      match shape a0 with
      | n0 :: n1 :: _ :: tl =>
          if forallb (fun a => same_but_axis2 (shape a0) (shape a)) rest
          then
            Ok (array
                  (n0 :: n1 :: fold_right Nat.add 0 (map (fun a => axis2 (shape a)) arrs) :: tl)
                  (concat (fold_right (fun a acc => zip_app (blocks a) acc)
                                      (repeat [] (n0 * n1)) arrs)))
          else
            Raise (ValueError "all the input array dimensions except for the concatenation axis must match exactly")
      | _ => Raise (ValueError "axis 2 is out of bounds")
      end
  end.

(** [numpy.dstack(tup)]: every array of [tup] goes through [atleast_3d],
    and the results are concatenated along the third axis. *)
Definition dstack (tup : list ndarray) : result ndarray :=
  concatenate2 (map atleast_3d tup).

(** Element access [a[i, j]] on a 2-d array and [a[i, j, k]] on a 3-d
    array; [None] when the array has another rank or the index is out
    of range. *)
Definition item2 (a : ndarray) (i j : nat) : option F :=
  match shape a with
  | [n0; n1] =>
      if (i <? n0) && (j <? n1) then nth_error (data a) (i * n1 + j) else None
  | _ => None
  end.

Definition item3 (a : ndarray) (i j k : nat) : option F :=
  match shape a with
  | [n0; n1; n2] =>
      if (i <? n0) && (j <? n1) && (k <? n2)
      then nth_error (data a) ((i * n1 + j) * n2 + k)
      else None
  | _ => None
  end.

End Arrays.
Arguments ndarray F : clear implicits.
End np.

(** ** The effects of [calc_pixmap]

    The interpreter state a call runs in: whatever the collaborators can
    observe and change ([world]), and the records the module logger has
    emitted ([log]).  The logger is set to DEBUG at import, so every
    [log.debug] call appends a record. *)

Section Effects.
Variables World BBox : Type.

(** A collaborator's answer: it sees and may change the world. *)
Definition ext (A : Type) : Type := World -> result A * World.

Definition pure_ext {A} (r : result A) : ext A := fun w => (r, w).

(** One [log.debug(template.format(arg))] record. *)
Inductive log_record : Type :=
| Debug (template : string) (arg : BBox).

Record state : Type := mkstate { world : World; log : list log_record }.

Definition M (A : Type) : Type := state -> result A * state.

Definition ret {A} (a : A) : M A := fun s => (Ok a, s).

Definition bind {A B} (m : M A) (k : A -> M B) : M B :=
  fun s =>
    match m s with
    | (Ok a, s') => k a s'
    | (Raise e, s') => (Raise e, s')
    end.

Definition lift {A} (r : result A) : M A := fun s => (r, s).

(** Calling a collaborator: the log is out of its reach. *)
Definition call {A} (c : ext A) : M A :=
  fun s =>
    let (r, w') := c (world s) in
    (r, mkstate w' (log s)).

Definition log_debug (template : string) (arg : BBox) : M unit :=
  fun s => (Ok tt, mkstate (world s) (log s ++ [Debug template arg])).

(** What a caller observes of a run apart from the log: the value
    returned or the exception raised, and the world left behind. *)
Definition outcome {A} (r : result A * state) : result A * World :=
  (fst r, world (snd r)).

End Effects.

Arguments Debug {BBox} template arg.
Arguments mkstate {World BBox} world log.
Arguments ret {World BBox A} a.
Arguments lift {World BBox A} r.
Arguments call {World BBox A} c.
Arguments log_debug {World BBox} template arg.

Declare Scope py_scope.
Delimit Scope py_scope with py.
Notation "x <- m ;; k" := (bind m (fun x => k))
  (at level 61, m at next level, right associativity) : py_scope.
Notation "m ;;; k" := (bind m (fun _ => k))
  (at level 61, right associativity) : py_scope.

(** ** [calc_pixmap] *)

Section CalcPixmap.
Variables F World BBox T : Type.

(** A WCS object or transform as [calc_pixmap] sees it: the attribute
    [pixel_shape], which the object may lack ([None]: reading it raises
    [AttributeError]) and whose value may itself be Python's [None], and
    the rest of the object, which only [util.reproject] looks at. *)
Record wcs : Type := mkwcs { pixel_shape : option value; transform : T }.

(** What [util.reproject(in_wcs, out_wcs)] returns. *)
Definition callable : Type :=
  np.ndarray F -> np.ndarray F -> ext World (list (np.ndarray F)).

Variable wcs_bbox_from_shape : value -> ext World BBox.
Variable grid_from_bounding_box : BBox -> ext World (list (np.ndarray F)).
Variable reproject : wcs -> wcs -> ext World callable.

(** [obj.pixel_shape] *)
Definition getattr_pixel_shape (obj : wcs) : result value :=
  match pixel_shape obj with
  | Some v => Ok v
  | None => Raise (AttributeError "object has no attribute 'pixel_shape'")
  end.

(** [seq[i]] on a Python sequence. *)
Definition getitem {A} (l : list A) (i : nat) : result A :=
  match nth_error l i with
  | Some a => Ok a
  | None => Raise (IndexError "index out of range")
  end.

Local Open Scope py_scope.

Definition calc_pixmap (in_wcs out_wcs : wcs) (shape : value)
  : M World BBox (np.ndarray F) :=
  bb <- (if truthy shape then
           bb <- call (wcs_bbox_from_shape shape) ;;
           log_debug "Bounding box from data shape: {}" bb ;;;
           ret bb
         else
           ps <- lift (getattr_pixel_shape in_wcs) ;;
           bb <- call (wcs_bbox_from_shape ps) ;;
           log_debug "Bounding box from WCS: {}" bb ;;;
           ret bb) ;;
  grid <- call (grid_from_bounding_box bb) ;;
  f <- call (reproject in_wcs out_wcs) ;;
  g0 <- lift (getitem grid 0) ;;
  g1 <- lift (getitem grid 1) ;;
  res <- call (f g0 g1) ;;
  lift (np.dstack res).

(** Lines 34 to 36 on their own, once the bounding box [bb] is known,
    as a function of the world alone: the log is not read there.
    [calc_pixmap_run] relates it to [calc_pixmap]. *)
Definition pixmap_from_bbox_w (in_wcs out_wcs : wcs) (bb : BBox)
  : ext World (np.ndarray F) :=
  fun w =>
    match grid_from_bounding_box bb w with
    | (Raise e, w1) => (Raise e, w1)
    | (Ok grid, w1) =>
        match reproject in_wcs out_wcs w1 with
        | (Raise e, w2) => (Raise e, w2)
        | (Ok f, w2) =>
            match getitem grid 0 with
            | Raise e => (Raise e, w2)
            | Ok g0 =>
                match getitem grid 1 with
                | Raise e => (Raise e, w2)
                | Ok g1 =>
                    match f g0 g1 w2 with
                    | (Raise e, w3) => (Raise e, w3)
                    | (Ok res, w3) => (np.dstack res, w3)
                    end
                end
            end
        end
    end.

(** The argument handed to [util.wcs_bbox_from_shape]: [shape] when it
    is truthy (line 28), [in_wcs.pixel_shape] otherwise (line 31). *)
Definition extent_argument (in_wcs : wcs) (shape : value) : result value :=
  if truthy shape then Ok shape else getattr_pixel_shape in_wcs.

(** A collaborator raised [e] during the run that starts in world [w],
    leaving world [w']: the bounding-box routine, the grid routine,
    [util.reproject] itself or the callable it returned. *)
Inductive collaborator_raises (in_wcs out_wcs : wcs) (shape : value)
          (w : World) (e : exn) (w' : World) : Prop :=
| bbox_raises v :
    extent_argument in_wcs shape = Ok v ->
    wcs_bbox_from_shape v w = (Raise e, w') ->
    collaborator_raises in_wcs out_wcs shape w e w'
| grid_raises v bb w1 :
    extent_argument in_wcs shape = Ok v ->
    wcs_bbox_from_shape v w = (Ok bb, w1) ->
    grid_from_bounding_box bb w1 = (Raise e, w') ->
    collaborator_raises in_wcs out_wcs shape w e w'
| reproject_raises v bb w1 grid w2 :
    extent_argument in_wcs shape = Ok v ->
    wcs_bbox_from_shape v w = (Ok bb, w1) ->
    grid_from_bounding_box bb w1 = (Ok grid, w2) ->
    reproject in_wcs out_wcs w2 = (Raise e, w') ->
    collaborator_raises in_wcs out_wcs shape w e w'
| callable_raises v bb w1 grid w2 f w3 g0 g1 :
    extent_argument in_wcs shape = Ok v ->
    wcs_bbox_from_shape v w = (Ok bb, w1) ->
    grid_from_bounding_box bb w1 = (Ok grid, w2) ->
    reproject in_wcs out_wcs w2 = (Ok f, w3) ->
    getitem grid 0 = Ok g0 ->
    getitem grid 1 = Ok g1 ->
    f g0 g1 w3 = (Raise e, w') ->
    collaborator_raises in_wcs out_wcs shape w e w'.

(** The input transform exposes no declared pixel extent: it has no
    [pixel_shape] attribute, or the attribute is [None]. *)
Definition no_declared_extent (in_wcs : wcs) : Prop :=
  pixel_shape in_wcs = None \/ pixel_shape in_wcs = Some VNone.

(** The log line of the branch taken. *)
Definition debug_template (shape : value) : string :=
  if truthy shape then "Bounding box from data shape: {}"
  else "Bounding box from WCS: {}".

(** A collaborator is deterministic when its answer does not depend on
    the world it is called in. *)
Definition deterministic {A} (c : ext World A) : Prop :=
  forall w w', fst (c w) = fst (c w').

End CalcPixmap.

(** The reading of "a distinguishable missing-extent error" that is
    checked on runs: the call raised, and what it raised is not the
    exception with which the bounding-box routine answered. *)
Definition raises_missing_extent_error {A B}
           (run : result A) (bbox_answer : result B) : Prop :=
  exists e, run = Raise e /\ bbox_answer <> Raise e.

Arguments mkwcs {T} pixel_shape transform.

(** ** The collaborators as the specification describes them

    [util.wcs_bbox_from_shape] and [util.reproject] belong to this package
    but not to this file, and [grid_from_bounding_box] is gwcs's.  The
    definitions below follow the specification's description of their
    interfaces; coordinates are rationals, so that half-pixel edges are
    exact. *)

Module SpecModel.

(** A bounding box: the (min, max) range of the x axis, then of the y
    axis. *)
Definition bbox : Type := ((Q * Q) * (Q * Q))%type.

Definition half : Q := 1 # 2.

(** Modelled from the spec: [util.wcs_bbox_from_shape], absent from the
    sources.  Given a pixel-array shape (rows, columns) it returns the
    pair of (min, max) pixel-edge ranges, x first, which cover from -0.5
    to extent-0.5 on each axis; anything that is not a pair of integers
    is a malformed shape and raises. *)
Definition box_of_extent (rows cols : Z) : bbox :=
  ((Qopp half, Qminus (inject_Z cols) half),
   (Qopp half, Qminus (inject_Z rows) half)).

Definition wcs_bbox_from_shape (shape : value) : result bbox :=
  match shape with
  | VTuple [rows; cols] | VList [rows; cols] => Ok (box_of_extent rows cols)
  | _ => Raise (TypeError "shape is not a pair of integers")
  end.

(** The integers k with lo <= k <= hi, ascending. *)
Definition pixel_centers (range : Q * Q) : list Z :=
  let lo := Qceiling (fst range) in
  let hi := Qfloor (snd range) in
  map (fun k => (lo + Z.of_nat k)%Z) (seq 0 (Z.to_nat (hi - lo + 1))).

(** Modelled from the spec: [gwcs.wcstools.grid_from_bounding_box],
    absent from the sources.  It returns two coordinate arrays (x-grid,
    y-grid), each shaped (rows, columns), which span the integer pixel
    centers covered by the box: at row i and column j the x-grid holds
    the j-th x center and the y-grid the i-th y center. *)
Definition grid_from_bounding_box (bb : bbox) : result (list (np.ndarray Q)) :=
  let xs := pixel_centers (fst bb) in
  let ys := pixel_centers (snd bb) in
  let shp := [length ys; length xs] in
  Ok [ np.array shp (concat (map (fun _ => map inject_Z xs) ys));
       np.array shp (concat (map (fun y => map (fun _ => inject_Z y) xs) ys)) ].

Section Transforms.
Variable sky : Type.

(** Modelled from the spec: the coordinate-transform capability of a
    WCS object, [to_world(pixel_coords)] and [to_pixel(world_coords)];
    either may be undefined at a point, which raises. *)
Record coord_transform : Type := mktransform {
  to_world : Q * Q -> result sky;
  to_pixel : sky -> result (Q * Q)
}.

(** The composed mapping of one pixel coordinate of the input frame to
    the output frame: the input transform takes it to the world, the
    output transform takes the world point to its own pixel coordinates.
    The direction is that of the docstring of [calc_pixmap] (line 11, "a
    pixel grid map from input frame to output frame"), of the argument
    order of line 35 and of line 31, which takes the grid to be mapped
    from the extent of [in_wcs]. *)
Definition reproject_point (t_in t_out : coord_transform) (p : Q * Q)
  : result (Q * Q) :=
  rbind (to_world t_in p) (to_pixel t_out).

Definition same_shape (s1 s2 : list nat) : bool :=
  if list_eq_dec Nat.eq_dec s1 s2 then true else false.

(** Modelled from the spec: [util.reproject], absent from the sources.
    Given the input and the output transform it returns a callable
    that composes the two; the callable takes the x and y coordinate
    arrays and returns the mapped x and y arrays, of the same shape, and
    raises when the composed transform is undefined at some point.  The
    specification words the composition as going from output-frame pixels
    to input-frame pixels; the sources have it from the input frame to the
    output frame (see [reproject_point]), and the sources are followed. *)
Definition reproject_callable (t_in t_out : coord_transform)
           (x y : np.ndarray Q) : result (list (np.ndarray Q)) :=
  if same_shape (np.shape x) (np.shape y) then
    rbind (mapM (reproject_point t_in t_out) (combine (np.data x) (np.data y)))
          (fun pts => Ok [ np.array (np.shape x) (map fst pts);
                           np.array (np.shape x) (map snd pts) ])
  else Raise (ValueError "operands could not be broadcast together").

Definition reproject (World : Type) (in_wcs out_wcs : wcs coord_transform)
  : result (callable Q World) :=
  Ok (fun x y =>
        pure_ext (reproject_callable (transform in_wcs) (transform out_wcs) x y)).

End Transforms.

(** [calc_pixmap] run with these collaborators. *)
Definition calc (World sky : Type)
           (in_wcs out_wcs : wcs (coord_transform sky)) (shape : value)
  : M World bbox (np.ndarray Q) :=
  calc_pixmap
    (fun v => pure_ext (wcs_bbox_from_shape v))
    (fun bb => pure_ext (grid_from_bounding_box bb))
    (fun a b => pure_ext (reproject World a b))
    in_wcs out_wcs shape.

(** The pixel centers of a grid of [rows] by [cols] pixels, as (x, y)
    pairs in row-major order. *)
Definition grid_points (rows cols : nat) : list (Q * Q) :=
  concat (map (fun y => map (fun x => (inject_Z x, inject_Z y))
                            (map Z.of_nat (seq 0 cols)))
              (map Z.of_nat (seq 0 rows))).

(** The pixel map built from the mapped grid points. *)
Definition pixmap_of_points (rows cols : nat) (pts : list (Q * Q))
  : np.ndarray Q :=
  np.array [rows; cols; 2] (concat (map (fun p => [fst p; snd p]) pts)).

(** Closeness of two coordinates within a tolerance. *)
Definition close (tol a b : Q) : Prop := Qle (Qabs (Qminus a b)) tol.

End SpecModel.

(** ** Concrete transforms and collaborators used in examples *)

Module Examples.
Import SpecModel.

(** A transform whose world coordinates are its pixel coordinates
    shifted by (dx, dy). *)
Definition shifted (dx dy : Q) : coord_transform (Q * Q) :=
  mktransform
    (fun p => Ok (Qplus (fst p) dx, Qplus (snd p) dy))
    (fun s => Ok (Qminus (fst s) dx, Qminus (snd s) dy)).

(** The identity coordinate system. *)
Definition identity : coord_transform (Q * Q) :=
  mktransform (fun p => Ok p) (fun s => Ok s).

(** A transform that is undefined everywhere. *)
Definition undefined : coord_transform (Q * Q) :=
  mktransform (fun _ => Raise (ValueError "transform undefined"))
              (fun _ => Raise (ValueError "transform undefined")).

(** Collaborators that count their calls in the world. *)
Definition counting {A} (r : result A) : ext nat A := fun n => (r, S n).

Definition start {World} (w : World) : state World bbox := mkstate w [].

(** An image of 2 rows by 3 columns in the identity coordinate system,
    one of 4 by 5 whose world coordinates are shifted by (10, 20), a WCS
    whose [pixel_shape] is [None], and a bare transform without the
    attribute. *)
Definition wcs_2x3 : wcs (coord_transform (Q * Q)) :=
  mkwcs (Some (VTuple [2%Z; 3%Z])) identity.

Definition wcs_4x5_shifted : wcs (coord_transform (Q * Q)) :=
  mkwcs (Some (VTuple [4%Z; 5%Z])) (shifted (10 # 1) (20 # 1)).

Definition wcs_no_extent : wcs (coord_transform (Q * Q)) :=
  mkwcs (Some VNone) identity.

Definition bare_transform : wcs (coord_transform (Q * Q)) :=
  mkwcs None identity.

Definition wcs_undefined : wcs (coord_transform (Q * Q)) :=
  mkwcs (Some (VTuple [2%Z; 3%Z])) undefined.

(** [calc_pixmap] with the collaborators of the specification, each
    counting its calls in the world. *)
Definition calc_counting
  : wcs (coord_transform (Q * Q)) -> wcs (coord_transform (Q * Q)) -> value
    -> M nat bbox (np.ndarray Q) :=
  calc_pixmap
    (fun v => counting (wcs_bbox_from_shape v))
    (fun bb => counting (grid_from_bounding_box bb))
    (fun a b => counting
       (Ok (fun x y =>
              counting (reproject_callable (transform a) (transform b) x y)))).

End Examples.

(** ** Instrumented collaborators

    To speak about which collaborators a run calls, and in which order,
    each collaborator is wrapped so that it appends its tag to a trace
    kept beside the world.  The wrapping changes nothing else. *)

Inductive collaborator_tag : Type :=
| CallBbox
| CallGrid
| CallReproject
| CallCallable.

Section Tracing.
Variables F World BBox T : Type.

Definition traced_world : Type := (World * list collaborator_tag)%type.

Definition traced {A} (tag : collaborator_tag) (c : ext World A)
  : ext traced_world A :=
  fun wt =>
    let (r, w') := c (fst wt) in
    (r, (w', snd wt ++ [tag])).

Definition traced_callable (f : callable F World) : callable F traced_world :=
  fun x y => traced CallCallable (f x y).

Definition traced_reproject
           (reproject : wcs T -> wcs T -> ext World (callable F World))
  : wcs T -> wcs T -> ext traced_world (callable F traced_world) :=
  fun a b wt =>
    let (r, w') := reproject a b (fst wt) in
    (match r with
     | Ok f => Ok (traced_callable f)
     | Raise e => Raise e
     end,
     (w', snd wt ++ [CallReproject])).

(** [calc_pixmap] run with the wrapped collaborators. *)
Definition calc_pixmap_traced
           (wcs_bbox_from_shape : value -> ext World BBox)
           (grid_from_bounding_box : BBox -> ext World (list (np.ndarray F)))
           (reproject : wcs T -> wcs T -> ext World (callable F World))
  : wcs T -> wcs T -> value -> M traced_world BBox (np.ndarray F) :=
  calc_pixmap
    (fun v => traced CallBbox (wcs_bbox_from_shape v))
    (fun bb => traced CallGrid (grid_from_bounding_box bb))
    (traced_reproject reproject).

(** The calls of a complete run, in order. *)
Definition full_trace : list collaborator_tag :=
  [CallBbox; CallGrid; CallReproject; CallCallable].

End Tracing.

(** ** Collaborators that break their interface, used in examples *)

Module Misbehaving.
Import SpecModel Examples.

(** [calc_pixmap] with the bounding-box routine of the specification, a
    given grid routine and a given callable, each counting its calls. *)
Definition calc_with
           (grid : bbox -> result (list (np.ndarray Q)))
           (f : np.ndarray Q -> np.ndarray Q -> result (list (np.ndarray Q)))
  : wcs (coord_transform (Q * Q)) -> wcs (coord_transform (Q * Q)) -> value
    -> M nat bbox (np.ndarray Q) :=
  calc_pixmap
    (fun v => counting (wcs_bbox_from_shape v))
    (fun bb => counting (grid bb))
    (fun _ _ => counting (Ok (fun x y => counting (f x y)))).

(** A grid routine that answers with the x-grid only. *)
Definition grid_x_only (bb : bbox) : result (list (np.ndarray Q)) :=
  rbind (grid_from_bounding_box bb) (fun g => Ok (firstn 1 g)).

(** Callables that answer with the grid arrays themselves, with three
    arrays, with none, and with two arrays of different shapes. *)
Definition echo (x y : np.ndarray Q) : result (list (np.ndarray Q)) :=
  Ok [x; y].

Definition three_axes (x y : np.ndarray Q) : result (list (np.ndarray Q)) :=
  Ok [x; y; x].

Definition no_axes (x y : np.ndarray Q) : result (list (np.ndarray Q)) :=
  Ok [].

Definition ragged (x y : np.ndarray Q) : result (list (np.ndarray Q)) :=
  Ok [x; np.array [1; 1] [0%Q]].

(** An output WCS like [wcs_4x5_shifted] that declares another extent. *)
Definition wcs_7x9_shifted : wcs (coord_transform (Q * Q)) :=
  mkwcs (Some (VTuple [7%Z; 9%Z])) (shifted (10 # 1) (20 # 1)).

End Misbehaving.

(** * Properties *)

(** ** Arrays *)

Section ArrayFacts.
Context {F : Type}.
Implicit Types (l : list F) (a b : np.ndarray F).

Lemma chunks_singletons l :
  np.chunks (length l) 1 l = map (fun x => [x]) l.
Proof.
  induction l as [|x l IH]; cbn; [reflexivity|].
  now rewrite IH.
Qed.

Lemma zip_app_singletons l1 l2 :
  length l1 = length l2 ->
  np.zip_app (map (fun x => [x]) l1)
             (np.zip_app (map (fun x => [x]) l2) (repeat [] (length l2)))
  = map (fun p => [fst p; snd p]) (combine l1 l2).
Proof.
  revert l2; induction l1 as [|x l1 IH]; intros [|y l2] Hlen;
    cbn in *; try discriminate; [reflexivity|].
  f_equal. apply IH. now injection Hlen.
Qed.

Lemma nth_error_pairs (ps : list (F * F)) n :
  nth_error (concat (map (fun p => [fst p; snd p]) ps)) (n * 2) =
    option_map fst (nth_error ps n)
  /\ nth_error (concat (map (fun p => [fst p; snd p]) ps)) (n * 2 + 1) =
       option_map snd (nth_error ps n).
Proof.
  revert n; induction ps as [|p ps IH]; intros [|n]; cbn; auto.
Qed.

Lemma length_pairs (ps : list (F * F)) :
  length (concat (map (fun p => [fst p; snd p]) ps)) = length ps * 2.
Proof.
  induction ps as [|p ps IH]; cbn; [reflexivity|]. now rewrite IH.
Qed.

Lemma nth_error_combine l1 l2 n :
  nth_error (combine l1 l2) n =
    match nth_error l1 n, nth_error l2 n with
    | Some x, Some y => Some (x, y)
    | _, _ => None
    end.
Proof.
  revert l2 n; induction l1 as [|x l1 IH]; intros [|y l2] [|n]; cbn; auto.
  now destruct (nth_error l1 n).
Qed.

(** [dstack] of two well-formed 2-d arrays of one shape (r, c): the
    result has shape (r, c, 2) and pairs the elements up. *)
Lemma dstack_pair a b r c :
  np.shape a = [r; c] -> np.shape b = [r; c] -> np.wf a -> np.wf b ->
  np.dstack [a; b] =
    Ok (np.array [r; c; 2]
          (concat (map (fun p => [fst p; snd p])
                       (combine (np.data a) (np.data b))))).
Proof.
  intros Ha Hb Wa Wb.
  unfold np.wf in *. rewrite Ha in Wa. rewrite Hb in Wb.
  cbn in Wa, Wb. rewrite Nat.mul_1_r in Wa, Wb.
  unfold np.dstack, np.concatenate2, np.atleast_3d. cbn [map].
  rewrite Ha, Hb. cbn [np.shape np.data forallb np.same_but_axis2].
  rewrite !Nat.eqb_refl. cbn [andb].
  destruct (list_eq_dec Nat.eq_dec [] []) as [_|n]; [|now destruct n].
  cbn [fold_right map np.axis2 nth np.shape Nat.add].
  unfold np.blocks. cbn [np.shape np.data np.size_of fold_right].
  replace (1 * 1) with 1 by reflexivity.
  rewrite <- Wa at 1. rewrite chunks_singletons.
  rewrite <- Wb at 1. rewrite chunks_singletons.
  rewrite <- Wb. rewrite zip_app_singletons by congruence.
  reflexivity.
Qed.

Lemma dstack_pair_shape a b r c pm :
  np.shape a = [r; c] -> np.shape b = [r; c] -> np.wf a -> np.wf b ->
  np.dstack [a; b] = Ok pm ->
  np.shape pm = [r; c; 2] /\ np.wf pm.
Proof.
  intros Ha Hb Wa Wb Hd.
  rewrite (dstack_pair Ha Hb Wa Wb) in Hd. injection Hd as <-.
  split; [reflexivity|].
  unfold np.wf in *. cbn [np.shape np.data].
  rewrite length_pairs, length_combine.
  rewrite Wa, Wb, Ha, Hb. cbn. lia.
Qed.

(** ... and element (i, j, 0) is a[i, j], element (i, j, 1) is
    b[i, j]. *)
Lemma dstack_pair_items a b r c pm i j :
  np.shape a = [r; c] -> np.shape b = [r; c] -> np.wf a -> np.wf b ->
  np.dstack [a; b] = Ok pm ->
  i < r -> j < c ->
  np.item3 pm i j 0 = np.item2 a i j /\ np.item3 pm i j 1 = np.item2 b i j.
Proof.
  intros Ha Hb Wa Wb Hd Hi Hj.
  rewrite (dstack_pair Ha Hb Wa Wb) in Hd. injection Hd as <-.
  unfold np.item3, np.item2. cbn [np.shape np.data]. rewrite Ha, Hb.
  apply Nat.ltb_lt in Hi as Hi'. apply Nat.ltb_lt in Hj as Hj'.
  rewrite Hi', Hj'. cbn [andb Nat.ltb Nat.leb].
  destruct (nth_error_pairs (combine (np.data a) (np.data b)) (i * c + j))
    as [E0 E1].
  rewrite Nat.add_0_r, E0, E1, nth_error_combine.
  assert (Hlt : i * c + j < r * c) by nia.
  unfold np.wf in *. rewrite Ha in Wa. rewrite Hb in Wb.
  cbn in Wa, Wb. rewrite Nat.mul_1_r in Wa, Wb.
  destruct (nth_error (np.data a) (i * c + j)) as [x|] eqn:Ex.
  2:{ apply nth_error_None in Ex. lia. }
  destruct (nth_error (np.data b) (i * c + j)) as [y|] eqn:Ey.
  2:{ apply nth_error_None in Ey. lia. }
  split; reflexivity.
Qed.

End ArrayFacts.

(** ** [calc_pixmap] with arbitrary collaborators *)

Section CalcPixmapFacts.
Variables F World BBox T : Type.
Variable wcs_bbox_from_shape : value -> ext World BBox.
Variable grid_from_bounding_box : BBox -> ext World (list (np.ndarray F)).
Variable reproject : wcs T -> wcs T -> ext World (callable F World).

Local Abbreviation calc_pixmap' :=
  (calc_pixmap wcs_bbox_from_shape grid_from_bounding_box reproject).
Local Abbreviation pixmap_from_bbox' :=
  (pixmap_from_bbox_w grid_from_bounding_box reproject).
Local Abbreviation collaborator_raises' :=
  (collaborator_raises wcs_bbox_from_shape grid_from_bounding_box reproject).

Implicit Types (in_wcs out_wcs : wcs T) (shape v : value)
         (s : state World BBox) (w : World).

(** One run of [calc_pixmap], spelled out. *)
Lemma calc_pixmap_run in_wcs out_wcs shape s :
  calc_pixmap' in_wcs out_wcs shape s =
    match extent_argument in_wcs shape with
    | Raise e => (Raise e, s)
    | Ok v =>
        match wcs_bbox_from_shape v (world s) with
        | (Raise e, w1) => (Raise e, mkstate w1 (log s))
        | (Ok bb, w1) =>
            let (r, w') := pixmap_from_bbox' in_wcs out_wcs bb w1 in
            (r, mkstate w' (log s ++ [Debug (debug_template shape) bb]))
        end
    end.
Proof.
  unfold calc_pixmap, extent_argument, debug_template, pixmap_from_bbox_w.
  destruct (truthy shape).
  - unfold bind, call, lift, ret, log_debug. cbn.
    destruct (wcs_bbox_from_shape shape (world s)) as [[bb|e] w1]; cbn;
      [|reflexivity].
    destruct (grid_from_bounding_box bb w1) as [[grid|e] w2]; cbn;
      [|reflexivity].
    destruct (reproject in_wcs out_wcs w2) as [[f|e] w3]; cbn;
      [|reflexivity].
    destruct (getitem grid 0) as [g0|e]; cbn; [|reflexivity].
    destruct (getitem grid 1) as [g1|e]; cbn; [|reflexivity].
    destruct (f g0 g1 w3) as [[res|e] w4]; cbn; reflexivity.
  - unfold bind, call, lift, ret, log_debug. cbn.
    destruct (getattr_pixel_shape in_wcs) as [ps|e]; cbn;
      [|now destruct s].
    destruct (wcs_bbox_from_shape ps (world s)) as [[bb|e] w1]; cbn;
      [|reflexivity].
    destruct (grid_from_bounding_box bb w1) as [[grid|e] w2]; cbn;
      [|reflexivity].
    destruct (reproject in_wcs out_wcs w2) as [[f|e] w3]; cbn;
      [|reflexivity].
    destruct (getitem grid 0) as [g0|e]; cbn; [|reflexivity].
    destruct (getitem grid 1) as [g1|e]; cbn; [|reflexivity].
    destruct (f g0 g1 w3) as [[res|e] w4]; cbn; reflexivity.
Qed.

(** What the caller observes depends on [shape] and [in_wcs.pixel_shape]
    only through the argument handed to the bounding-box routine. *)
Lemma outcome_by_extent_argument in_wcs out_wcs shape1 shape2 s1 s2 :
  extent_argument in_wcs shape1 = extent_argument in_wcs shape2 ->
  world s1 = world s2 ->
  outcome (calc_pixmap' in_wcs out_wcs shape1 s1) =
  outcome (calc_pixmap' in_wcs out_wcs shape2 s2).
Proof.
  intros He Hw. rewrite !calc_pixmap_run, He, Hw.
  destruct (extent_argument in_wcs shape2) as [v|e].
  - destruct (wcs_bbox_from_shape v (world s2)) as [[bb|e] w1];
      [|reflexivity].
    now destruct (pixmap_from_bbox' in_wcs out_wcs bb w1).
  - unfold outcome. cbn. now rewrite Hw.
Qed.

(** C4. Default-extent equivalence: when the input transform declares
    the pixel extent (r, c), a call without [shape] returns the same
    value (or raises the same exception) and leaves the same world as a
    call with [shape = (r, c)], the tuple taken in the order in which
    the transform declares it. *)
Theorem default_extent_equivalence in_wcs out_wcs (r c : Z) s :
  pixel_shape in_wcs = Some (VTuple [r; c]) ->
  outcome (calc_pixmap' in_wcs out_wcs VNone s) =
  outcome (calc_pixmap' in_wcs out_wcs (VTuple [r; c]) s).
Proof.
  intros Hps. apply outcome_by_extent_argument; [|reflexivity].
  unfold extent_argument, getattr_pixel_shape. cbn. now rewrite Hps.
Qed.

(** C7. An explicit shape overrides the declared extent: two calls with
    the same shape (r, c) and the same output transform, whose input
    transforms differ only in [pixel_shape] (which one of them may
    lack), run identically, given that [util.reproject] itself does not
    look at [pixel_shape]. *)
Theorem shape_overrides_declared_extent in_wcs1 in_wcs2 out_wcs (r c : Z) s :
  transform in_wcs1 = transform in_wcs2 ->
  (forall a b o w, transform a = transform b -> reproject a o w = reproject b o w) ->
  calc_pixmap' in_wcs1 out_wcs (VTuple [r; c]) s =
  calc_pixmap' in_wcs2 out_wcs (VTuple [r; c]) s.
Proof.
  intros Ht Hr. rewrite !calc_pixmap_run. cbn.
  destruct (wcs_bbox_from_shape (VTuple [r; c]) (world s)) as [[bb|e] w1];
    [|reflexivity].
  unfold pixmap_from_bbox_w.
  destruct (grid_from_bounding_box bb w1) as [[grid|e] w2]; [|reflexivity].
  now rewrite (Hr in_wcs1 in_wcs2 out_wcs w2 Ht).
Qed.

(** C10. A falsy [shape] that is not [None] (the empty tuple, 0, False,
    the empty list) runs exactly as [shape = None] does, and [shape]
    plays no part in the run: the branch of line 31 is taken, the
    bounding-box routine is called with the value of
    [in_wcs.pixel_shape] (AttributeError when the attribute is missing),
    the log line is the one of that branch, and lines 34 to 36 go on from
    the box the routine returned. *)
Theorem falsy_shape_as_omitted in_wcs out_wcs shape s :
  truthy shape = false ->
  shape <> VNone ->
  calc_pixmap' in_wcs out_wcs shape s = calc_pixmap' in_wcs out_wcs VNone s
  /\ calc_pixmap' in_wcs out_wcs shape s =
       match pixel_shape in_wcs with
       | None =>
           (Raise (AttributeError "object has no attribute 'pixel_shape'"), s)
       | Some ps =>
           match wcs_bbox_from_shape ps (world s) with
           | (Raise e, w1) => (Raise e, mkstate w1 (log s))
           | (Ok bb, w1) =>
               let (r, w') := pixmap_from_bbox' in_wcs out_wcs bb w1 in
               (r, mkstate w' (log s ++ [Debug "Bounding box from WCS: {}" bb]))
           end
       end.
Proof.
  intros Hf _. rewrite !calc_pixmap_run.
  unfold extent_argument, getattr_pixel_shape, debug_template.
  rewrite Hf. cbn [truthy].
  split; [reflexivity|].
  now destruct (pixel_shape in_wcs).
Qed.

(** C9. Whatever exception a collaborator raises comes out of
    [calc_pixmap] unchanged, with the world as the collaborator left it,
    and no pixel map is returned. *)
Theorem collaborator_error_propagates in_wcs out_wcs shape s e w' :
  collaborator_raises' in_wcs out_wcs shape (world s) e w' ->
  outcome (calc_pixmap' in_wcs out_wcs shape s) = (Raise e, w')
  /\ forall pm, fst (calc_pixmap' in_wcs out_wcs shape s) <> Ok pm.
Proof.
  intros H.
  assert (Ho : outcome (calc_pixmap' in_wcs out_wcs shape s) = (Raise e, w')).
  { rewrite calc_pixmap_run. unfold pixmap_from_bbox_w.
    destruct H as [v Hv Hb | v bb w1 Hv Hb Hg | v bb w1 grid w2 Hv Hb Hg Hr
                  | v bb w1 grid w2 f w3 g0 g1 Hv Hb Hg Hr H0 H1 Hf];
      rewrite Hv, Hb; try rewrite Hg; try rewrite Hr;
      try rewrite H0, H1, Hf; reflexivity. }
  split; [exact Ho|].
  intros pm Hpm. unfold outcome in Ho. rewrite Hpm in Ho. discriminate.
Qed.


(** C1 (amended). With a falsy [shape] ([None] included) and an input
    transform that declares no extent, and a bounding-box routine that
    raises when handed [None], the call raises and returns no map; but it
    has no error of its own for the situation.  Without a [pixel_shape]
    attribute the attribute access raises AttributeError and nothing else
    happens; with [pixel_shape = None] that [None] goes to the
    bounding-box routine, and the exception the routine raises is the one
    that comes out, unchanged. *)
Theorem missing_extent_outcome in_wcs out_wcs shape s e w' :
  truthy shape = false ->
  no_declared_extent in_wcs ->
  wcs_bbox_from_shape VNone (world s) = (Raise e, w') ->
  calc_pixmap' in_wcs out_wcs shape s =
    match pixel_shape in_wcs with
    | None =>
        (Raise (AttributeError "object has no attribute 'pixel_shape'"), s)
    | Some _ => (Raise e, mkstate w' (log s))
    end
  /\ forall pm, fst (calc_pixmap' in_wcs out_wcs shape s) <> Ok pm.
Proof.
  intros Hf Hno Hb.
  assert (Hrun : calc_pixmap' in_wcs out_wcs shape s =
                 match pixel_shape in_wcs with
                 | None =>
                     (Raise (AttributeError "object has no attribute 'pixel_shape'"), s)
                 | Some _ => (Raise e, mkstate w' (log s))
                 end).
  { rewrite calc_pixmap_run.
    unfold extent_argument, getattr_pixel_shape. rewrite Hf.
    destruct Hno as [Hps|Hps]; rewrite Hps; [reflexivity|].
    now rewrite Hb. }
  split; [exact Hrun|].
  intros pm Hpm. rewrite Hrun in Hpm.
  destruct (pixel_shape in_wcs); discriminate.
Qed.

Lemma pixmap_from_bbox_deterministic in_wcs out_wcs bb :
  (forall bb, deterministic (grid_from_bounding_box bb)) ->
  (forall a b, deterministic (reproject a b)) ->
  (forall a b w f, fst (reproject a b w) = Ok f ->
                   forall x y, deterministic (f x y)) ->
  deterministic (pixmap_from_bbox' in_wcs out_wcs bb).
Proof.
  intros Hg Hr Hf w w'. unfold pixmap_from_bbox_w.
  specialize (Hg bb w w').
  destruct (grid_from_bounding_box bb w) as [[grid|e] w1],
           (grid_from_bounding_box bb w') as [[grid'|e'] w1'];
    cbn in Hg; try discriminate; [|cbn; congruence].
  injection Hg as <-.
  pose proof (Hr in_wcs out_wcs w1 w1') as Hr1.
  pose proof (Hf in_wcs out_wcs w1) as Hf1.
  destruct (reproject in_wcs out_wcs w1) as [[f|e] w2],
           (reproject in_wcs out_wcs w1') as [[f'|e'] w2'];
    cbn in Hr1; try discriminate; [|cbn; congruence].
  injection Hr1 as <-.
  destruct (getitem grid 0) as [g0|e]; [|reflexivity].
  destruct (getitem grid 1) as [g1|e]; [|reflexivity].
  specialize (Hf1 f eq_refl g0 g1 w2 w2').
  destruct (f g0 g1 w2) as [[res|e] w3], (f g0 g1 w2') as [[res'|e'] w3'];
    cbn in Hf1; try discriminate; cbn; [|congruence].
  now injection Hf1 as <-.
Qed.

(** C8. Determinism: when the collaborators (and the callable that
    [util.reproject] returns) answer independently of the world, two
    calls with the same transforms and the same shape return the same
    value or raise the same exception, whatever state each starts
    in. *)
Theorem calc_pixmap_deterministic in_wcs out_wcs shape s1 s2 :
  (forall v, deterministic (wcs_bbox_from_shape v)) ->
  (forall bb, deterministic (grid_from_bounding_box bb)) ->
  (forall a b, deterministic (reproject a b)) ->
  (forall a b w f, fst (reproject a b w) = Ok f ->
                   forall x y, deterministic (f x y)) ->
  fst (calc_pixmap' in_wcs out_wcs shape s1) =
  fst (calc_pixmap' in_wcs out_wcs shape s2).
Proof.
  intros Hb Hg Hr Hf. rewrite !calc_pixmap_run.
  destruct (extent_argument in_wcs shape) as [v|e]; [|reflexivity].
  specialize (Hb v (world s1) (world s2)).
  destruct (wcs_bbox_from_shape v (world s1)) as [[bb|e] w1],
           (wcs_bbox_from_shape v (world s2)) as [[bb'|e'] w1'];
    cbn in Hb; try discriminate; [|cbn; congruence].
  injection Hb as <-.
  pose proof (pixmap_from_bbox_deterministic in_wcs out_wcs bb Hg Hr Hf w1 w1')
    as Hp.
  destruct (pixmap_from_bbox' in_wcs out_wcs bb w1),
           (pixmap_from_bbox' in_wcs out_wcs bb w1'). exact Hp.
Qed.

(** A call that returns went through every collaborator, and its value
    is [dstack] of what the callable returned. *)
Lemma calc_pixmap_returns in_wcs out_wcs shape s pm s' :
  calc_pixmap' in_wcs out_wcs shape s = (Ok pm, s') ->
  exists v bb w1 grid w2 f w3 gx gy res,
    extent_argument in_wcs shape = Ok v
    /\ wcs_bbox_from_shape v (world s) = (Ok bb, w1)
    /\ grid_from_bounding_box bb w1 = (Ok grid, w2)
    /\ reproject in_wcs out_wcs w2 = (Ok f, w3)
    /\ getitem grid 0 = Ok gx
    /\ getitem grid 1 = Ok gy
    /\ f gx gy w3 = (Ok res, world s')
    /\ np.dstack res = Ok pm.
Proof.
  rewrite calc_pixmap_run. unfold pixmap_from_bbox_w.
  destruct (extent_argument in_wcs shape) as [v|e] eqn:Hv; [|discriminate].
  destruct (wcs_bbox_from_shape v (world s)) as [[bb|e] w1] eqn:Hb;
    [|discriminate].
  destruct (grid_from_bounding_box bb w1) as [[grid|e] w2] eqn:Hg;
    [|discriminate].
  destruct (reproject in_wcs out_wcs w2) as [[f|e] w3] eqn:Hr;
    [|discriminate].
  destruct (getitem grid 0) as [gx|e] eqn:H0; [|discriminate].
  destruct (getitem grid 1) as [gy|e] eqn:H1; [|discriminate].
  destruct (f gx gy w3) as [[res|e] w4] eqn:Hf; [|discriminate].
  intros H. injection H as Hd <-. cbn.
  exists v, bb, w1, grid, w2, f, w3, gx, gy, res. now repeat split.
Qed.

(** C6. For every call that returns, the pixel map is [dstack] of what
    the reprojection callable returned on the two grid arrays, and
    nothing else: when those are two arrays [mx], [my] of one shape
    (r, c), the map has shape (r, c, 2) and holds mx[i, j] at
    [i, j, 0] and my[i, j] at [i, j, 1] for every grid point, whatever
    the values are. *)
Theorem pixmap_is_stacked_reprojection in_wcs out_wcs shape s pm s' :
  calc_pixmap' in_wcs out_wcs shape s = (Ok pm, s') ->
  exists v bb w1 grid w2 f w3 gx gy res,
    (extent_argument in_wcs shape = Ok v
     /\ wcs_bbox_from_shape v (world s) = (Ok bb, w1)
     /\ grid_from_bounding_box bb w1 = (Ok grid, w2)
     /\ reproject in_wcs out_wcs w2 = (Ok f, w3)
     /\ getitem grid 0 = Ok gx
     /\ getitem grid 1 = Ok gy
     /\ f gx gy w3 = (Ok res, world s'))
    /\ np.dstack res = Ok pm
    /\ forall mx my r c,
        res = [mx; my] ->
        np.shape mx = [r; c] -> np.shape my = [r; c] ->
        np.wf mx -> np.wf my ->
        np.shape pm = [r; c; 2]
        /\ forall i j, i < r -> j < c ->
             np.item3 pm i j 0 = np.item2 mx i j
             /\ np.item3 pm i j 1 = np.item2 my i j.
Proof.
  intros H.
  destruct (calc_pixmap_returns _ _ _ _ H)
    as (v & bb & w1 & grid & w2 & f & w3 & gx & gy & res
        & Hv & Hb & Hg & Hr & H0 & H1 & Hf & Hd).
  exists v, bb, w1, grid, w2, f, w3, gx, gy, res.
  split; [now repeat split|]. split; [exact Hd|].
  intros mx my r c -> Hmx Hmy Wmx Wmy. split.
  - apply (dstack_pair_shape Hmx Hmy Wmx Wmy Hd).
  - intros i j Hi Hj. apply (dstack_pair_items Hmx Hmy Wmx Wmy Hd Hi Hj).
Qed.

(** C3. Shape fidelity: called with the shape (r, c), with
    collaborators that answer as their interfaces say (the bounding-box
    routine accepts the shape, the grid routine answers with two arrays
    shaped (r, c), the reprojection callable answers with two arrays
    shaped like the grid), the call returns an array of shape exactly
    (r, c, 2), holding r * c * 2 elements.  Positive r and c are a
    special case. *)
Theorem shape_fidelity in_wcs out_wcs (r c : nat) s
        bb w1 gx gy w2 f w3 mx my w4 :
  wcs_bbox_from_shape (VTuple [Z.of_nat r; Z.of_nat c]) (world s) = (Ok bb, w1) ->
  grid_from_bounding_box bb w1 = (Ok [gx; gy], w2) ->
  np.shape gx = [r; c] -> np.shape gy = [r; c] ->
  reproject in_wcs out_wcs w2 = (Ok f, w3) ->
  f gx gy w3 = (Ok [mx; my], w4) ->
  np.shape mx = np.shape gx -> np.shape my = np.shape gy ->
  np.wf mx -> np.wf my ->
  exists pm,
    outcome (calc_pixmap' in_wcs out_wcs (VTuple [Z.of_nat r; Z.of_nat c]) s)
    = (Ok pm, w4)
    /\ np.shape pm = [r; c; 2]
    /\ length (np.data pm) = r * c * 2.
Proof.
  intros Hb Hg Hgx Hgy Hr Hf Hmx Hmy Wmx Wmy.
  rewrite Hgx in Hmx. rewrite Hgy in Hmy.
  rewrite calc_pixmap_run. unfold pixmap_from_bbox_w. cbn.
  rewrite Hb, Hg, Hr. cbn. rewrite Hf.
  destruct (np.dstack [mx; my]) as [pm|e] eqn:Hd.
  2:{ rewrite (dstack_pair Hmx Hmy Wmx Wmy) in Hd. discriminate. }
  exists pm. split; [reflexivity|].
  destruct (dstack_pair_shape Hmx Hmy Wmx Wmy Hd) as [Hs Hw].
  split; [exact Hs|]. unfold np.wf in Hw. rewrite Hw, Hs. cbn. lia.
Qed.

End CalcPixmapFacts.

(** ** [calc_pixmap] with the collaborators of the specification *)

Section MapM.
Context {A B : Type} (f : A -> result B).

Lemma mapM_length l bs : mapM f l = Ok bs -> length bs = length l.
Proof.
  revert bs; induction l as [|a l IH]; cbn; intros bs H.
  - now injection H as <-.
  - destruct (f a); [|discriminate].
    destruct (mapM f l); [|discriminate].
    injection H as <-. cbn. now rewrite (IH _ eq_refl).
Qed.

Lemma mapM_nth_error l bs k a :
  mapM f l = Ok bs -> nth_error l k = Some a ->
  exists b, nth_error bs k = Some b /\ f a = Ok b.
Proof.
  revert bs k; induction l as [|a0 l IH]; intros bs [|k] H Hk;
    cbn in *; try discriminate.
  - injection Hk as ->.
    destruct (f a) as [b|]; [|discriminate].
    destruct (mapM f l); [|discriminate].
    injection H as <-. now exists b.
  - destruct (f a0); [|discriminate].
    destruct (mapM f l) as [bs'|]; [|discriminate].
    injection H as <-. cbn. now apply IH.
Qed.

Lemma mapM_total l :
  (forall a, In a l -> exists b, f a = Ok b) -> exists bs, mapM f l = Ok bs.
Proof.
  induction l as [|a l IH]; cbn; intros H.
  - now exists [].
  - destruct (H a (or_introl eq_refl)) as [b ->].
    destruct IH as [bs ->]; [intros; apply H; now right|].
    now exists (b :: bs).
Qed.

End MapM.

Section GridFacts.

Lemma Qfloor_minus_half (n : Z) :
  Qfloor (Qminus (inject_Z n) SpecModel.half) = (n - 1)%Z.
Proof.
  unfold Qfloor, Qminus, Qplus, Qopp, inject_Z, SpecModel.half. cbn.
  symmetry. apply Z.div_unique with (r := 1%Z); lia.
Qed.

(** The pixel centers of the range from -0.5 to n-0.5 are 0 .. n-1. *)
Lemma pixel_centers_of_extent (n : Z) :
  SpecModel.pixel_centers (Qopp SpecModel.half, Qminus (inject_Z n) SpecModel.half)
  = map Z.of_nat (seq 0 (Z.to_nat n)).
Proof.
  unfold SpecModel.pixel_centers. cbn [fst snd].
  rewrite Qfloor_minus_half.
  change (Qceiling (Qopp SpecModel.half)) with 0%Z.
  replace (n - 1 - 0 + 1)%Z with n by lia.
  apply map_ext. intros k. lia.
Qed.

Lemma nth_error_centers n k :
  k < n -> nth_error (map Z.of_nat (seq 0 n)) k = Some (Z.of_nat k).
Proof.
  intros Hk. rewrite nth_error_map, nth_error_seq.
  apply Nat.ltb_lt in Hk. now rewrite Hk.
Qed.

(** One row of the x-grid zipped with one row of the y-grid. *)
Lemma combine_row {A C D} (fx : A -> C) (d : D) (xs : list A)
      (rest1 : list C) (rest2 : list D) :
  combine (map fx xs ++ rest1) (map (fun _ => d) xs ++ rest2)
  = map (fun x => (fx x, d)) xs ++ combine rest1 rest2.
Proof.
  induction xs as [|x xs IHx]; cbn; [reflexivity|]. now rewrite IHx.
Qed.

Lemma combine_rows {A B C D} (fx : A -> C) (fy : B -> D) (xs : list A) (ys : list B) :
  combine (concat (map (fun _ => map fx xs) ys))
          (concat (map (fun y => map (fun _ => fy y) xs) ys))
  = concat (map (fun y => map (fun x => (fx x, fy y)) xs) ys).
Proof.
  induction ys as [|y ys IH]; cbn; [reflexivity|].
  now rewrite combine_row, IH.
Qed.

Lemma combine_fst_snd {A B} (l : list (A * B)) :
  combine (map fst l) (map snd l) = l.
Proof.
  induction l as [|[a b] l IH]; cbn; [reflexivity|]. now rewrite IH.
Qed.

Lemma nth_error_rows {A B} (g : B -> list A) (ys : list B) n i j y :
  (forall y, length (g y) = n) ->
  nth_error ys i = Some y -> j < n ->
  nth_error (concat (map g ys)) (i * n + j) = nth_error (g y) j.
Proof.
  intros Hlen. revert i; induction ys as [|y0 ys IH]; intros [|i] Hi Hj;
    cbn in *; try discriminate.
  - injection Hi as ->. rewrite nth_error_app1; [reflexivity|].
    now rewrite Hlen.
  - rewrite nth_error_app2; rewrite Hlen; [|lia].
    replace (n + i * n + j - n) with (i * n + j) by lia.
    now apply IH.
Qed.

Lemma length_rows {A B} (g : B -> list A) (ys : list B) n :
  (forall y, length (g y) = n) ->
  length (concat (map g ys)) = length ys * n.
Proof.
  intros Hlen. induction ys as [|y ys IH]; cbn; [reflexivity|].
  now rewrite length_app, Hlen, IH.
Qed.

End GridFacts.

Section SpecModelFacts.
Import SpecModel.
Variables World sky : Type.

Implicit Types (in_wcs out_wcs : wcs (coord_transform sky))
         (s : state World bbox).

Lemma bbox_accepts v bb :
  wcs_bbox_from_shape v = Ok bb ->
  exists rows cols,
    (v = VTuple [rows; cols] \/ v = VList [rows; cols])
    /\ bb = box_of_extent rows cols.
Proof.
  destruct v as [| | |[|r [|c [|]]]|[|r [|c [|]]]]; cbn; try discriminate;
    intros H; injection H as <-; exists r, c; auto.
Qed.

Lemma nth_error_grid_points rows cols i j :
  i < rows -> j < cols ->
  nth_error (grid_points rows cols) (i * cols + j)
  = Some (inject_Z (Z.of_nat j), inject_Z (Z.of_nat i)).
Proof.
  intros Hi Hj. unfold grid_points.
  rewrite nth_error_rows with (n := cols) (y := Z.of_nat i).
  - rewrite nth_error_map, nth_error_centers by assumption. reflexivity.
  - intros y. now rewrite !length_map, length_seq.
  - now apply nth_error_centers.
  - assumption.
Qed.

Lemma length_grid_points rows cols :
  length (grid_points rows cols) = rows * cols.
Proof.
  unfold grid_points. rewrite length_rows with (n := cols).
  - now rewrite length_map, length_seq.
  - intros y. now rewrite !length_map, length_seq.
Qed.

(** Lines 34 to 36 with the collaborators of the specification: every
    grid point goes through the composed transform, and the mapped
    points are laid out as the pixel map. *)
Lemma pixmap_from_bbox_spec in_wcs out_wcs (rows cols : Z) (w : World) :
  pixmap_from_bbox_w
    (fun bb => pure_ext (grid_from_bounding_box bb))
    (fun a b => pure_ext (reproject World a b))
    in_wcs out_wcs (box_of_extent rows cols) w
  = (rbind (mapM (reproject_point (transform in_wcs) (transform out_wcs))
                 (grid_points (Z.to_nat rows) (Z.to_nat cols)))
           (fun pts => Ok (pixmap_of_points (Z.to_nat rows) (Z.to_nat cols) pts)),
     w).
Proof.
  unfold pixmap_from_bbox_w, pure_ext, grid_from_bounding_box, reproject,
    box_of_extent.
  cbn [fst snd getitem nth_error].
  rewrite !pixel_centers_of_extent.
  rewrite !length_map, !length_seq.
  unfold reproject_callable. cbn [np.shape np.data].
  unfold same_shape.
  destruct (list_eq_dec Nat.eq_dec _ _) as [_|n]; [|now destruct n].
  rewrite combine_rows. fold (grid_points (Z.to_nat rows) (Z.to_nat cols)).
  destruct (mapM _ _) as [pts|e] eqn:Hm; cbn [rbind];
    cbv beta iota delta [pure_ext]; [|reflexivity].
  apply mapM_length in Hm. rewrite length_grid_points in Hm.
  rewrite dstack_pair with (r := Z.to_nat rows) (c := Z.to_nat cols);
    try reflexivity.
  - cbn [np.data]. now rewrite combine_fst_snd.
  - unfold np.wf. cbn. rewrite length_map. lia.
  - unfold np.wf. cbn. rewrite length_map. lia.
Qed.

Lemma item3_pixmap_of_points rows cols pts i j :
  i < rows -> j < cols ->
  np.item3 (pixmap_of_points rows cols pts) i j 0
  = option_map fst (nth_error pts (i * cols + j))
  /\ np.item3 (pixmap_of_points rows cols pts) i j 1
    = option_map snd (nth_error pts (i * cols + j)).
Proof.
  intros Hi Hj. unfold np.item3, pixmap_of_points. cbn [np.shape np.data].
  apply Nat.ltb_lt in Hi, Hj. rewrite Hi, Hj. cbn [andb Nat.ltb Nat.leb].
  rewrite Nat.add_0_r. apply nth_error_pairs.
Qed.

(** A run with the collaborators of the specification, spelled out. *)
Lemma calc_run in_wcs out_wcs shape s :
  calc in_wcs out_wcs shape s =
    match rbind (extent_argument in_wcs shape) wcs_bbox_from_shape with
    | Raise e => (Raise e, s)
    | Ok bb =>
        (rbind (mapM (reproject_point (transform in_wcs) (transform out_wcs))
                     (grid_points (Z.to_nat (Qfloor (snd (snd bb)) + 1))
                                  (Z.to_nat (Qfloor (snd (fst bb)) + 1))))
               (fun pts => Ok (pixmap_of_points
                                 (Z.to_nat (Qfloor (snd (snd bb)) + 1))
                                 (Z.to_nat (Qfloor (snd (fst bb)) + 1)) pts)),
         mkstate (world s) (log s ++ [Debug (debug_template shape) bb]))
    end.
Proof.
  unfold calc. rewrite calc_pixmap_run.
  destruct (extent_argument in_wcs shape) as [v|e]; cbn [rbind];
    [|reflexivity].
  unfold pure_ext at 1.
  destruct (wcs_bbox_from_shape v) as [bb|e] eqn:Hb; [|now destruct s].
  destruct (bbox_accepts _ Hb) as (rows & cols & _ & ->).
  rewrite pixmap_from_bbox_spec. cbn [box_of_extent fst snd].
  rewrite !Qfloor_minus_half.
  now replace (rows - 1 + 1)%Z with rows by lia;
    replace (cols - 1 + 1)%Z with cols by lia.
Qed.

(** C2 (amended). Every call that returns gives a map of shape
    (rows, cols, 2) over the extent handed to the bounding-box routine
    ([shape], or the extent the input transform declares), whose element
    [i, j, :] is the output-frame coordinate (x, y) of the input-frame
    pixel in row i and column j: the input transform takes the pixel
    center (j, i) to the world, the output transform takes that point
    to (x, y).  The grid sampled is the pixel grid of the input frame,
    and the stored coordinates lie in the output frame. *)
Theorem pixmap_holds_output_frame_coordinates in_wcs out_wcs shape s pm s' :
  calc in_wcs out_wcs shape s = (Ok pm, s') ->
  exists rows cols : Z,
    (extent_argument in_wcs shape = Ok (VTuple [rows; cols])
     \/ extent_argument in_wcs shape = Ok (VList [rows; cols]))
    /\ np.shape pm = [Z.to_nat rows; Z.to_nat cols; 2]
    /\ forall i j, i < Z.to_nat rows -> j < Z.to_nat cols ->
         exists wc x y,
           to_world (transform in_wcs)
                    (inject_Z (Z.of_nat j), inject_Z (Z.of_nat i)) = Ok wc
           /\ to_pixel (transform out_wcs) wc = Ok (x, y)
           /\ np.item3 pm i j 0 = Some x
           /\ np.item3 pm i j 1 = Some y.
Proof.
  rewrite calc_run.
  destruct (extent_argument in_wcs shape) as [v|e]; cbn [rbind];
    [|discriminate].
  destruct (wcs_bbox_from_shape v) as [bb|e] eqn:Hb; [|discriminate].
  destruct (bbox_accepts _ Hb) as (rows & cols & Hv & ->).
  cbn [box_of_extent fst snd]. rewrite !Qfloor_minus_half.
  replace (rows - 1 + 1)%Z with rows by lia.
  replace (cols - 1 + 1)%Z with cols by lia.
  destruct (mapM _ _) as [pts|e] eqn:Hm; cbn [rbind]; [|discriminate].
  intros H. injection H as <- _.
  exists rows, cols. split; [destruct Hv as [->| ->]; auto|].
  split; [reflexivity|].
  intros i j Hi Hj.
  destruct (mapM_nth_error _ _ _ Hm (nth_error_grid_points Hi Hj))
    as ([x y] & Hpt & Hrp).
  unfold reproject_point, rbind in Hrp.
  destruct (to_world (transform in_wcs) _) as [wc|e] eqn:Hw; [|discriminate].
  exists wc, x, y. split; [reflexivity|]. split; [exact Hrp|].
  destruct (item3_pixmap_of_points pts Hi Hj) as [-> ->].
  now rewrite Hpt.
Qed.

(** C5. Identity transform property, with the collaborators as the
    specification describes them: when the composed transform takes
    every pixel coordinate to itself within the tolerance [tol] (input
    and output transform stand for one coordinate system), a call with
    shape (r, c) returns a map of shape (r, c, 2) whose element
    [i, j, :] is (j, i), x before y, within [tol].  The example of the
    specification is r = c = 3 with tolerance 1e-6. *)
Theorem identity_transform_property in_wcs out_wcs (r c : nat) (tol : Q) s :
  (forall p, exists q,
      reproject_point (transform in_wcs) (transform out_wcs) p = Ok q
      /\ close tol (fst q) (fst p) /\ close tol (snd q) (snd p)) ->
  exists pm,
    outcome (calc in_wcs out_wcs (VTuple [Z.of_nat r; Z.of_nat c]) s)
    = (Ok pm, world s)
    /\ np.shape pm = [r; c; 2]
    /\ forall i j, i < r -> j < c ->
         exists x y,
           np.item3 pm i j 0 = Some x /\ np.item3 pm i j 1 = Some y
           /\ close tol x (inject_Z (Z.of_nat j))
           /\ close tol y (inject_Z (Z.of_nat i)).
Proof.
  intros Hid. rewrite calc_run.
  cbn [extent_argument truthy rbind wcs_bbox_from_shape box_of_extent fst snd].
  rewrite !Qfloor_minus_half.
  replace (Z.of_nat r - 1 + 1)%Z with (Z.of_nat r) by lia.
  replace (Z.of_nat c - 1 + 1)%Z with (Z.of_nat c) by lia.
  rewrite !Nat2Z.id.
  destruct (mapM_total (reproject_point (transform in_wcs) (transform out_wcs))
                       (grid_points r c)) as [pts Hm].
  { intros p _. destruct (Hid p) as (q & Hq & _). now exists q. }
  rewrite Hm. cbn [rbind]. exists (pixmap_of_points r c pts).
  split; [reflexivity|]. split; [reflexivity|].
  intros i j Hi Hj.
  destruct (mapM_nth_error _ _ _ Hm (nth_error_grid_points Hi Hj))
    as ([x y] & Hpt & Hrp).
  destruct (Hid (inject_Z (Z.of_nat j), inject_Z (Z.of_nat i)))
    as (q & Hq & Hx & Hy).
  rewrite Hrp in Hq. injection Hq as <-.
  destruct (item3_pixmap_of_points pts Hi Hj) as [-> ->].
  rewrite Hpt. exists x, y. now repeat split.
Qed.

End SpecModelFacts.

(** ** Concrete runs *)

Section Runs.
Import SpecModel Examples.

(** C1, as stated, fails.  With [shape = None] and a WCS whose
    [pixel_shape] is [None], the call does raise, but what it raises is
    the bounding-box routine's own answer to [None], not an error of the
    call's own. *)
Lemma missing_extent_not_signalled :
  ~ raises_missing_extent_error
      (fst (calc_counting wcs_no_extent wcs_2x3 VNone (start 0)))
      (wcs_bbox_from_shape VNone).
Proof.
  intros (e & Hrun & Hbbox).
  vm_compute in Hrun. injection Hrun as <-. now apply Hbbox.
Qed.

Lemma missing_extent_outcome_witness :
  (calc_counting wcs_no_extent wcs_2x3 (VTuple []) (start 0)
   = (Raise (TypeError "shape is not a pair of integers"), mkstate 1 [])
   /\ forall pm,
       fst (calc_counting wcs_no_extent wcs_2x3 (VTuple []) (start 0)) <> Ok pm)
  /\ (calc_counting bare_transform wcs_2x3 VNone (start 0)
      = (Raise (AttributeError "object has no attribute 'pixel_shape'"), start 0)
      /\ forall pm,
          fst (calc_counting bare_transform wcs_2x3 VNone (start 0)) <> Ok pm).
Proof.
  split.
  - unfold calc_counting.
    refine (@missing_extent_outcome _ _ _ _ _ _ _ wcs_no_extent wcs_2x3
              (VTuple []) (start 0)
              (TypeError "shape is not a pair of integers") 1 _ _ _).
    + reflexivity.
    + right. reflexivity.
    + reflexivity.
  - unfold calc_counting.
    refine (@missing_extent_outcome _ _ _ _ _ _ _ bare_transform wcs_2x3
              VNone (start 0)
              (TypeError "shape is not a pair of integers") 1 _ _ _).
    + reflexivity.
    + left. reflexivity.
    + reflexivity.
Defined.

(** C2, as stated, fails.  Input: a 2 by 3 image in the identity
    coordinate system; output: a WCS whose world coordinates are its pixel
    coordinates shifted by (10, 20).  The map has the shape of the input
    image, and its element [0, 0, :] is (-10, -20), the output-frame
    position of input pixel (0, 0); the input-frame coordinate of
    output-frame pixel (0, 0), which the claim puts there, is
    (10, 20). *)
Lemma pixmap_is_not_input_frame_coordinates :
  exists pm,
    fst (calc wcs_2x3 wcs_4x5_shifted VNone (start tt)) = Ok pm
    /\ np.shape pm = [2; 3; 2]
    /\ ~ (exists wc x y x' y',
            to_world (transform wcs_4x5_shifted)
                     (inject_Z (Z.of_nat 0), inject_Z (Z.of_nat 0)) = Ok wc
            /\ to_pixel (transform wcs_2x3) wc = Ok (x, y)
            /\ np.item3 pm 0 0 0 = Some x'
            /\ np.item3 pm 0 0 1 = Some y'
            /\ Qeq x' x /\ Qeq y' y).
Proof.
  eexists. split; [vm_compute; reflexivity|]. split; [reflexivity|].
  intros (wc & x & y & x' & y' & Hw & Hp & Hx & Hy & Hxx & _).
  cbn in Hw. injection Hw as <-.
  cbn in Hp. injection Hp as <- <-.
  vm_compute in Hx. injection Hx as <-.
  vm_compute in Hxx. discriminate.
Qed.

Lemma pixmap_holds_output_frame_coordinates_witness :
  exists rows cols : Z,
    (extent_argument wcs_2x3 VNone = Ok (VTuple [rows; cols])
     \/ extent_argument wcs_2x3 VNone = Ok (VList [rows; cols]))
    /\ np.shape (np.array [2; 3; 2]
                   [-10#1; -20#1; -9#1; -20#1; -8#1; -20#1;
                    -10#1; -19#1; -9#1; -19#1; -8#1; -19#1]%Q)
       = [Z.to_nat rows; Z.to_nat cols; 2]
    /\ forall i j, i < Z.to_nat rows -> j < Z.to_nat cols ->
         exists wc x y,
           to_world (transform wcs_2x3)
                    (inject_Z (Z.of_nat j), inject_Z (Z.of_nat i)) = Ok wc
           /\ to_pixel (transform wcs_4x5_shifted) wc = Ok (x, y)
           /\ np.item3 (np.array [2; 3; 2]
                          [-10#1; -20#1; -9#1; -20#1; -8#1; -20#1;
                           -10#1; -19#1; -9#1; -19#1; -8#1; -19#1]%Q) i j 0 = Some x
           /\ np.item3 (np.array [2; 3; 2]
                          [-10#1; -20#1; -9#1; -20#1; -8#1; -20#1;
                           -10#1; -19#1; -9#1; -19#1; -8#1; -19#1]%Q) i j 1 = Some y.
Proof.
  apply (@pixmap_holds_output_frame_coordinates unit (Q * Q)
           wcs_2x3 wcs_4x5_shifted VNone (start tt) _
           (mkstate tt [Debug "Bounding box from WCS: {}" (box_of_extent 2 3)])).
  vm_compute. reflexivity.
Defined.

Lemma shape_fidelity_witness :
  exists pm,
    outcome (calc_counting wcs_4x5_shifted wcs_2x3 (VTuple [2%Z; 3%Z]) (start 0))
    = (Ok pm, 4)
    /\ np.shape pm = [2; 3; 2]
    /\ length (np.data pm) = 2 * 3 * 2.
Proof.
  unfold calc_counting.
  eapply (shape_fidelity _ _ _ wcs_4x5_shifted wcs_2x3 (r := 2) (c := 3) (start 0));
    vm_compute; reflexivity.
Defined.

Lemma default_extent_equivalence_witness :
  outcome (calc_counting wcs_2x3 wcs_4x5_shifted VNone (start 0))
  = outcome (calc_counting wcs_2x3 wcs_4x5_shifted (VTuple [2%Z; 3%Z]) (start 0)).
Proof.
  unfold calc_counting. apply default_extent_equivalence. reflexivity.
Defined.

(** The example of the specification: shape (3, 3), identity transforms,
    tolerance 1e-6. *)
Lemma identity_transform_property_witness :
  exists pm,
    outcome (calc wcs_2x3 wcs_2x3 (VTuple [3%Z; 3%Z]) (start tt)) = (Ok pm, tt)
    /\ np.shape pm = [3; 3; 2]
    /\ forall i j, i < 3 -> j < 3 ->
         exists x y,
           np.item3 pm i j 0 = Some x /\ np.item3 pm i j 1 = Some y
           /\ close (1 # 1000000) x (inject_Z (Z.of_nat j))
           /\ close (1 # 1000000) y (inject_Z (Z.of_nat i)).
Proof.
  apply (@identity_transform_property unit (Q * Q) wcs_2x3 wcs_2x3 3 3
           (1 # 1000000) (start tt)).
  intros [x y]. exists (x, y). split; [reflexivity|].
  unfold close. cbn [fst snd]. split.
  - setoid_replace (x - x)%Q with 0%Q by ring. vm_compute. discriminate.
  - setoid_replace (y - y)%Q with 0%Q by ring. vm_compute. discriminate.
Defined.
Lemma pixmap_is_stacked_reprojection_witness :
  exists v bb w1 grid w2 f w3 gx gy res,
    (extent_argument wcs_2x3 VNone = Ok v
     /\ counting (wcs_bbox_from_shape v) 0 = (Ok bb, w1)
     /\ counting (grid_from_bounding_box bb) w1 = (Ok grid, w2)
     /\ counting
          (Ok (fun x y =>
                 counting (reproject_callable (transform wcs_2x3)
                                              (transform wcs_4x5_shifted) x y)))
          w2 = (Ok f, w3)
     /\ getitem grid 0 = Ok gx
     /\ getitem grid 1 = Ok gy
     /\ f gx gy w3 = (Ok res, 4))
    /\ np.dstack res
       = Ok (np.array [2; 3; 2]
               [-10#1; -20#1; -9#1; -20#1; -8#1; -20#1;
                -10#1; -19#1; -9#1; -19#1; -8#1; -19#1]%Q)
    /\ forall mx my r c,
        res = [mx; my] ->
        np.shape mx = [r; c] -> np.shape my = [r; c] ->
        np.wf mx -> np.wf my ->
        np.shape (np.array [2; 3; 2]
                    [-10#1; -20#1; -9#1; -20#1; -8#1; -20#1;
                     -10#1; -19#1; -9#1; -19#1; -8#1; -19#1]%Q) = [r; c; 2]
        /\ forall i j, i < r -> j < c ->
             np.item3 (np.array [2; 3; 2]
                         [-10#1; -20#1; -9#1; -20#1; -8#1; -20#1;
                          -10#1; -19#1; -9#1; -19#1; -8#1; -19#1]%Q) i j 0
             = np.item2 mx i j
             /\ np.item3 (np.array [2; 3; 2]
                            [-10#1; -20#1; -9#1; -20#1; -8#1; -20#1;
                             -10#1; -19#1; -9#1; -19#1; -8#1; -19#1]%Q) i j 1
                = np.item2 my i j.
Proof.
  apply (pixmap_is_stacked_reprojection
           (fun v => counting (wcs_bbox_from_shape v))
           (fun bb => counting (grid_from_bounding_box bb))
           (fun a b => counting
              (Ok (fun x y =>
                     counting (reproject_callable (transform a) (transform b) x y))))
           wcs_2x3 wcs_4x5_shifted VNone (start 0)
           (s' := mkstate 4 [Debug "Bounding box from WCS: {}" (box_of_extent 2 3)])).
  vm_compute. reflexivity.
Defined.

Lemma shape_overrides_declared_extent_witness :
  calc_counting wcs_2x3 wcs_4x5_shifted (VTuple [3%Z; 3%Z]) (start 0)
  = calc_counting bare_transform wcs_4x5_shifted (VTuple [3%Z; 3%Z]) (start 0).
Proof.
  unfold calc_counting. apply shape_overrides_declared_extent.
  - reflexivity.
  - intros a b o w Hab. now rewrite Hab.
Defined.

Lemma calc_pixmap_deterministic_witness :
  fst (calc_counting wcs_2x3 wcs_4x5_shifted VNone (start 0))
  = fst (calc_counting wcs_2x3 wcs_4x5_shifted VNone
           (mkstate 7 [Debug "Bounding box from WCS: {}" (box_of_extent 2 3)])).
Proof.
  unfold calc_counting. apply calc_pixmap_deterministic.
  - intros v w w'. reflexivity.
  - intros bb w w'. reflexivity.
  - intros a b w w'. reflexivity.
  - intros a b w f Hf x y w1 w2. cbn in Hf. injection Hf as <-. reflexivity.
Defined.

Lemma collaborator_error_propagates_witness :
  outcome (calc_counting wcs_2x3 wcs_undefined VNone (start 0))
  = (Raise (ValueError "transform undefined"), 4)
  /\ forall pm,
      fst (calc_counting wcs_2x3 wcs_undefined VNone (start 0)) <> Ok pm.
Proof.
  unfold calc_counting. apply collaborator_error_propagates.
  eapply callable_raises; vm_compute; reflexivity.
Defined.

Lemma falsy_shape_as_omitted_witness :
  calc_counting wcs_2x3 wcs_4x5_shifted (VTuple []) (start 0)
  = calc_counting wcs_2x3 wcs_4x5_shifted VNone (start 0)
  /\ calc_counting wcs_2x3 wcs_4x5_shifted (VTuple []) (start 0)
     = (Ok (np.array [2; 3; 2]
              [-10#1; -20#1; -9#1; -20#1; -8#1; -20#1;
               -10#1; -19#1; -9#1; -19#1; -8#1; -19#1]%Q),
        mkstate 4 [Debug "Bounding box from WCS: {}" (box_of_extent 2 3)]).
Proof.
  unfold calc_counting.
  destruct (falsy_shape_as_omitted
              (fun v => counting (wcs_bbox_from_shape v))
              (fun bb => counting (grid_from_bounding_box bb))
              (fun a b => counting
                 (Ok (fun x y =>
                        counting (reproject_callable (transform a) (transform b) x y))))
              wcs_2x3 wcs_4x5_shifted (shape := VTuple []) (start 0))
    as [Hsame Hrun].
  - reflexivity.
  - discriminate.
  - split; [exact Hsame|]. rewrite Hrun. vm_compute. reflexivity.
Defined.

End Runs.

(** * Further properties of [calc_pixmap] *)

(** ** Stacking any number of arrays *)

Section StackFacts.
Context {F : Type}.
Implicit Types (a : np.ndarray F) (res : list (np.ndarray F)).

Lemma nth_error_zip_app (xs ys : list (list F)) p :
  nth_error (np.zip_app xs ys) p =
    match nth_error xs p, nth_error ys p with
    | Some x, Some y => Some (x ++ y)
    | _, _ => None
    end.
Proof.
  revert ys p; induction xs as [|x xs IH]; intros [|y ys] [|p]; cbn; auto.
  now destruct (nth_error xs p).
Qed.

Lemma length_zip_app (xs ys : list (list F)) :
  length xs = length ys -> length (np.zip_app xs ys) = length ys.
Proof.
  revert ys; induction xs as [|x xs IH]; intros [|y ys] H; cbn in *;
    try discriminate; [reflexivity|].
  f_equal. apply IH. now injection H.
Qed.

Lemma blocks_of_2d a r c :
  np.shape a = [r; c] -> np.wf a ->
  np.blocks (np.atleast_3d a) = map (fun x => [x]) (np.data a).
Proof.
  intros Ha Wa. unfold np.wf in Wa. rewrite Ha in Wa. cbn in Wa.
  rewrite Nat.mul_1_r in Wa.
  unfold np.atleast_3d, np.blocks. rewrite Ha. cbn [np.shape np.data np.size_of fold_right].
  replace (1 * 1) with 1 by reflexivity.
  rewrite <- Wa. apply chunks_singletons.
Qed.

(** The blocks of the stacked array: block p holds element p of every
    array, in the order of the arrays. *)
Lemma stacked_blocks res r c :
  Forall (fun a => np.shape a = [r; c] /\ np.wf a) res ->
  let cols := fold_right (fun a acc => np.zip_app (np.blocks a) acc)
                         (repeat [] (r * c)) (map np.atleast_3d res) in
  length cols = r * c
  /\ forall p, p < r * c ->
       exists row,
         nth_error cols p = Some row
         /\ length row = length res
         /\ forall m a, nth_error res m = Some a ->
                        nth_error row m = nth_error (np.data a) p.
Proof.
  induction 1 as [|a res [Ha Wa] _ IH]; cbn [map fold_right length].
  - split; [apply repeat_length|].
    intros p Hp. exists []. split.
    + now apply nth_error_repeat.
    + split; [reflexivity|]. intros [|m] a'; discriminate.
  - cbn zeta in IH. destruct IH as [Hlen Hrows].
    rewrite (blocks_of_2d Ha Wa).
    assert (Hda : length (np.data a) = r * c).
    { unfold np.wf in Wa. rewrite Wa, Ha. cbn. lia. }
    split.
    + rewrite length_zip_app; [exact Hlen|]. now rewrite length_map, Hlen.
    + intros p Hp. destruct (Hrows p Hp) as (row & Hrow & Hlr & Hnth).
      destruct (nth_error (np.data a) p) as [x|] eqn:Hx.
      2:{ apply nth_error_None in Hx. lia. }
      exists (x :: row). rewrite nth_error_zip_app, nth_error_map, Hx, Hrow.
      split; [reflexivity|]. split; [cbn; now rewrite Hlr|].
      intros [|m] a' Hm; cbn in Hm |- *.
      * injection Hm as <-. now rewrite Hx.
      * now apply Hnth.
Qed.

Lemma nth_error_concat_uniform (cols : list (list F)) k p m row :
  (forall q r', nth_error cols q = Some r' -> length r' = k) ->
  nth_error cols p = Some row -> m < k ->
  nth_error (concat cols) (p * k + m) = nth_error row m.
Proof.
  revert p; induction cols as [|c0 cols IH]; intros [|p] Hk Hp Hm;
    cbn in *; try discriminate.
  - injection Hp as ->. rewrite nth_error_app1; [reflexivity|].
    now rewrite (Hk 0 row eq_refl).
  - rewrite nth_error_app2; rewrite (Hk 0 c0 eq_refl); [|lia].
    replace (k + p * k + m - k) with (p * k + m) by lia.
    apply IH; [|assumption|assumption].
    intros q r' Hq. exact (Hk (S q) r' Hq).
Qed.

Lemma stacked_axis res r c :
  Forall (fun a => np.shape a = [r; c] /\ np.wf a) res ->
  fold_right Nat.add 0
             (map (fun a => np.axis2 (np.shape a)) (map np.atleast_3d res))
  = length res
  /\ forallb (fun a => np.same_but_axis2 [r; c; 1] (np.shape a))
             (map np.atleast_3d res) = true.
Proof.
  induction 1 as [|a res [Ha Wa] _ [IH1 IH2]]; cbn [map fold_right length forallb].
  - split; reflexivity.
  - assert (Hs : np.shape (np.atleast_3d a) = [r; c; 1]).
    { unfold np.atleast_3d. now rewrite Ha. }
    rewrite Hs, IH1, IH2. split; [reflexivity|].
    cbn [np.same_but_axis2]. rewrite !Nat.eqb_refl.
    now destruct (list_eq_dec Nat.eq_dec [] []).
Qed.

(** [dstack] of k >= 1 well-formed 2-d arrays of one shape (r, c): the
    result has shape (r, c, k), and element (i, j, m) is element (i, j)
    of the m-th array. *)
Lemma dstack_same_shape res r c :
  res <> [] ->
  Forall (fun a => np.shape a = [r; c] /\ np.wf a) res ->
  exists pm,
    np.dstack res = Ok pm
    /\ np.shape pm = [r; c; length res]
    /\ forall i j m a, i < r -> j < c -> nth_error res m = Some a ->
                       np.item3 pm i j m = np.item2 a i j.
Proof.
  intros Hne Hall.
  destruct (stacked_blocks Hall) as [Hlen Hrows].
  destruct (stacked_axis Hall) as [Hax Hsame].
  assert (Hshapes : forall m a, nth_error res m = Some a -> np.shape a = [r; c]).
  { intros m a Hm. apply nth_error_In in Hm.
    rewrite Forall_forall in Hall. now apply Hall. }
  destruct res as [|a0 rest]; [contradiction|].
  assert (Hs0 : np.shape (np.atleast_3d a0) = [r; c; 1]).
  { unfold np.atleast_3d. now rewrite (Hshapes 0 a0 eq_refl). }
  cbn [map forallb] in Hsame. apply andb_prop in Hsame as [_ Hsame].
  unfold np.dstack, np.concatenate2. cbn [map]. rewrite Hs0, Hsame.
  cbn [map] in Hax, Hlen, Hrows. rewrite Hs0 in Hax. rewrite Hax.
  eexists. split; [reflexivity|]. split; [reflexivity|].
  intros i j m a Hi Hj Hm.
  unfold np.item3, np.item2. cbn [np.shape np.data].
  rewrite (Hshapes m a Hm).
  assert (Hmk : m < length (a0 :: rest)).
  { apply nth_error_Some. now rewrite Hm. }
  apply Nat.ltb_lt in Hi as Hi'. apply Nat.ltb_lt in Hj as Hj'.
  apply Nat.ltb_lt in Hmk as Hm'.
  rewrite Hi', Hj', Hm'. cbn [andb].
  assert (Hp : i * c + j < r * c) by nia.
  destruct (Hrows _ Hp) as (row & Hrow & Hlr & Hnth).
  rewrite nth_error_concat_uniform with (row := row); try assumption.
  - now apply Hnth.
  - intros q r' Hq.
    assert (Hq' : q < r * c).
    { rewrite <- Hlen. apply nth_error_Some. now rewrite Hq. }
    destruct (Hrows _ Hq') as (row' & Hrow' & Hlr' & _).
    rewrite Hq in Hrow'. now injection Hrow' as ->.
Qed.

End StackFacts.

(** ** Logging, evaluation order and the shape of what is stacked *)

Section CalcPixmapMore.
Variables F World BBox T : Type.
Variable wcs_bbox_from_shape : value -> ext World BBox.
Variable grid_from_bounding_box : BBox -> ext World (list (np.ndarray F)).
Variable reproject : wcs T -> wcs T -> ext World (callable F World).

Local Abbreviation run_calc :=
  (calc_pixmap wcs_bbox_from_shape grid_from_bounding_box reproject).
Local Abbreviation run_traced :=
  (calc_pixmap_traced wcs_bbox_from_shape grid_from_bounding_box reproject).

Implicit Types (in_wcs out_wcs : wcs T) (shape v : value)
         (s : state World BBox) (w : World).

(** X1. What a call logs: nothing when the bounding box is never
    obtained (the attribute is missing or the routine raises), and
    otherwise exactly one debug record, appended to the records already
    there, naming the branch taken and carrying the box the routine
    returned.  The record is there whether the rest of the call returns or
    raises; nothing after line 32 logs. *)
Theorem log_of_a_call in_wcs out_wcs shape s :
  log (snd (run_calc in_wcs out_wcs shape s)) =
    match extent_argument in_wcs shape with
    | Raise _ => log s
    | Ok v =>
        match wcs_bbox_from_shape v (world s) with
        | (Raise _, _) => log s
        | (Ok bb, _) =>
            log s ++ [Debug (if truthy shape
                             then "Bounding box from data shape: {}"
                             else "Bounding box from WCS: {}") bb]
        end
    end.
Proof.
  rewrite calc_pixmap_run.
  destruct (extent_argument in_wcs shape) as [v|e]; [|reflexivity].
  destruct (wcs_bbox_from_shape v (world s)) as [[bb|e] w1]; [|reflexivity].
  now destruct (pixmap_from_bbox_w grid_from_bounding_box reproject
                                   in_wcs out_wcs bb w1).
Qed.

(** X2. A grid with fewer than two arrays: [util.reproject] is still
    called first, and its exception, if it raises, is the one that comes
    out; otherwise indexing the grid raises IndexError, and the callable
    that [util.reproject] returned is never called. *)
Theorem short_grid_raises_index_error in_wcs out_wcs shape s v bb w1 grid w2 :
  extent_argument in_wcs shape = Ok v ->
  wcs_bbox_from_shape v (world s) = (Ok bb, w1) ->
  grid_from_bounding_box bb w1 = (Ok grid, w2) ->
  length grid < 2 ->
  outcome (run_calc in_wcs out_wcs shape s) =
    match reproject in_wcs out_wcs w2 with
    | (Raise e, w3) => (Raise e, w3)
    | (Ok _, w3) => (Raise (IndexError "index out of range"), w3)
    end.
Proof.
  intros Hv Hb Hg Hlen. rewrite calc_pixmap_run, Hv, Hb.
  unfold pixmap_from_bbox_w. rewrite Hg.
  destruct (reproject in_wcs out_wcs w2) as [[f|e] w3]; [|reflexivity].
  unfold getitem.
  destruct grid as [|g0 [|g1 rest]]; cbn in Hlen |- *; try reflexivity. lia.
Qed.

(** X3. The trailing axis has one entry per array the callable returns:
    when it answers with k >= 1 well-formed 2-d arrays of one shape
    (r, c), the call returns a map of shape (r, c, k) whose element
    [i, j, m] is element [i, j] of the m-th array.  Two arrays are not
    enforced. *)
Theorem one_plane_per_returned_array in_wcs out_wcs shape s
        v bb w1 grid w2 f w3 gx gy res w4 (r c : nat) :
  extent_argument in_wcs shape = Ok v ->
  wcs_bbox_from_shape v (world s) = (Ok bb, w1) ->
  grid_from_bounding_box bb w1 = (Ok grid, w2) ->
  reproject in_wcs out_wcs w2 = (Ok f, w3) ->
  getitem grid 0 = Ok gx -> getitem grid 1 = Ok gy ->
  f gx gy w3 = (Ok res, w4) ->
  res <> [] ->
  Forall (fun a => np.shape a = [r; c] /\ np.wf a) res ->
  exists pm,
    outcome (run_calc in_wcs out_wcs shape s) = (Ok pm, w4)
    /\ np.shape pm = [r; c; length res]
    /\ forall i j m a, i < r -> j < c -> nth_error res m = Some a ->
                       np.item3 pm i j m = np.item2 a i j.
Proof.
  intros Hv Hb Hg Hr H0 H1 Hf Hne Hall.
  destruct (dstack_same_shape Hne Hall) as (pm & Hd & Hs & Hitems).
  exists pm. split; [|now split].
  rewrite calc_pixmap_run, Hv, Hb. unfold pixmap_from_bbox_w.
  now rewrite Hg, Hr, H0, H1, Hf, Hd.
Qed.

(** X4. What the callable returns is not validated before it is stacked:
    when it answers with no array at all, or with two 2-d arrays of
    different shapes, the call raises the ValueError of [dstack], after
    all four collaborator calls, and returns no map. *)
Theorem unstackable_answer_raises in_wcs out_wcs shape s
        v bb w1 grid w2 f w3 gx gy res w4 :
  extent_argument in_wcs shape = Ok v ->
  wcs_bbox_from_shape v (world s) = (Ok bb, w1) ->
  grid_from_bounding_box bb w1 = (Ok grid, w2) ->
  reproject in_wcs out_wcs w2 = (Ok f, w3) ->
  getitem grid 0 = Ok gx -> getitem grid 1 = Ok gy ->
  f gx gy w3 = (Ok res, w4) ->
  (res = []
   \/ exists mx my r c r' c',
       res = [mx; my] /\ np.shape mx = [r; c] /\ np.shape my = [r'; c']
       /\ (r <> r' \/ c <> c')) ->
  exists msg,
    outcome (run_calc in_wcs out_wcs shape s) = (Raise (ValueError msg), w4).
Proof.
  intros Hv Hb Hg Hr H0 H1 Hf Hbad.
  assert (Hd : exists msg, np.dstack res = Raise (ValueError msg)).
  { destruct Hbad as [-> | (mx & my & r & c & r' & c' & -> & Hmx & Hmy & Hne)].
    - eexists. reflexivity.
    - unfold np.dstack, np.concatenate2, np.atleast_3d. cbn [map].
      rewrite Hmx, Hmy. cbn [np.shape forallb np.same_but_axis2].
      assert (Hneq : (r =? r') && (c =? c') = false).
      { destruct Hne as [Hne|Hne]; apply Nat.eqb_neq in Hne; rewrite Hne;
          [reflexivity | apply andb_false_r]. }
      rewrite Hneq. cbn. eexists. reflexivity. }
  destruct Hd as [msg Hd]. exists msg.
  rewrite calc_pixmap_run, Hv, Hb. unfold pixmap_from_bbox_w.
  now rewrite Hg, Hr, H0, H1, Hf, Hd.
Qed.

(** X5. The output WCS contributes nothing but what [util.reproject]
    makes of it: its [pixel_shape] is never read, with or without a
    [shape] argument.  Two output objects that differ only in
    [pixel_shape] give the same run, given that [util.reproject] itself
    does not look at the attribute. *)
Theorem output_extent_is_never_read in_wcs out_wcs1 out_wcs2 shape s :
  transform out_wcs1 = transform out_wcs2 ->
  (forall i a b w, transform a = transform b -> reproject i a w = reproject i b w) ->
  run_calc in_wcs out_wcs1 shape s = run_calc in_wcs out_wcs2 shape s.
Proof.
  intros Ht Hr. rewrite !calc_pixmap_run.
  destruct (extent_argument in_wcs shape) as [v|e]; [|reflexivity].
  destruct (wcs_bbox_from_shape v (world s)) as [[bb|e] w1]; [|reflexivity].
  unfold pixmap_from_bbox_w.
  destruct (grid_from_bounding_box bb w1) as [[grid|e] w2]; [|reflexivity].
  now rewrite (Hr in_wcs out_wcs1 out_wcs2 w2 Ht).
Qed.

(** X6. Each collaborator is called at most once and in the order
    bounding box, grid, [util.reproject], callable: the trace of a run
    with instrumented collaborators is an initial part of that sequence,
    and all of it when the run returns a map.  There is no retry and no
    call after a failure.  The instrumentation does not change what the
    run returns or the world it leaves. *)
Theorem collaborators_called_once_in_order in_wcs out_wcs shape w
        (lg : list (log_record BBox)) :
  let traced_run := run_traced in_wcs out_wcs shape (mkstate (w, []) lg) in
  let plain_run := run_calc in_wcs out_wcs shape (mkstate w lg) in
  fst traced_run = fst plain_run
  /\ fst (world (snd traced_run)) = world (snd plain_run)
  /\ (exists n, snd (world (snd traced_run)) = firstn n full_trace)
  /\ (forall pm, fst traced_run = Ok pm ->
                 snd (world (snd traced_run)) = full_trace).
Proof.
  cbv zeta. unfold calc_pixmap_traced. rewrite !calc_pixmap_run.
  unfold pixmap_from_bbox_w, traced_reproject, traced_callable, traced.
  cbn [world log fst snd].
  destruct (extent_argument in_wcs shape) as [v|e].
  2:{ cbn. split; [reflexivity|]. split; [reflexivity|].
      split; [now exists 0 | discriminate]. }
  destruct (wcs_bbox_from_shape v w) as [[bb|e] w1]; cbn [fst snd app].
  2:{ cbn. split; [reflexivity|]. split; [reflexivity|].
      split; [now exists 1 | discriminate]. }
  destruct (grid_from_bounding_box bb w1) as [[grid|e] w2]; cbn [fst snd app].
  2:{ cbn. split; [reflexivity|]. split; [reflexivity|].
      split; [now exists 2 | discriminate]. }
  destruct (reproject in_wcs out_wcs w2) as [[f|e] w3]; cbn [fst snd app].
  2:{ cbn. split; [reflexivity|]. split; [reflexivity|].
      split; [now exists 3 | discriminate]. }
  destruct (getitem grid 0) as [g0|e].
  2:{ cbn. split; [reflexivity|]. split; [reflexivity|].
      split; [now exists 3 | discriminate]. }
  destruct (getitem grid 1) as [g1|e].
  2:{ cbn. split; [reflexivity|]. split; [reflexivity|].
      split; [now exists 3 | discriminate]. }
  destruct (f g0 g1 w3) as [[res|e] w4]; cbn.
  - split; [reflexivity|]. split; [reflexivity|].
    split; [now exists 4 | reflexivity].
  - split; [reflexivity|]. split; [reflexivity|].
    split; [now exists 4 | discriminate].
Qed.

End CalcPixmapMore.

(** ** Concrete runs of the further properties *)

Section MoreRuns.
Import SpecModel Examples Misbehaving.

Lemma short_grid_raises_index_error_witness :
  outcome (calc_with grid_x_only echo wcs_2x3 wcs_4x5_shifted VNone (start 0))
  = (Raise (IndexError "index out of range"), 3).
Proof.
  unfold calc_with.
  eapply eq_trans.
  - eapply short_grid_raises_index_error with (grid := firstn 1 _).
    + reflexivity.
    + reflexivity.
    + reflexivity.
    + cbn. lia.
  - reflexivity.
Defined.

Lemma one_plane_per_returned_array_witness :
  exists pm,
    outcome (calc_with grid_from_bounding_box three_axes
                       wcs_2x3 wcs_4x5_shifted VNone (start 0)) = (Ok pm, 4)
    /\ np.shape pm = [2; 3; 3]
    /\ forall i j m a, i < 2 -> j < 3 ->
         nth_error [np.array [2; 3] [0#1; 1#1; 2#1; 0#1; 1#1; 2#1]%Q;
                    np.array [2; 3] [0#1; 0#1; 0#1; 1#1; 1#1; 1#1]%Q;
                    np.array [2; 3] [0#1; 1#1; 2#1; 0#1; 1#1; 2#1]%Q] m = Some a ->
         np.item3 pm i j m = np.item2 a i j.
Proof.
  unfold calc_with.
  eapply (one_plane_per_returned_array _ _ _ wcs_2x3 wcs_4x5_shifted VNone (start 0)
            (r := 2) (c := 3)
            (res := [np.array [2; 3] [0#1; 1#1; 2#1; 0#1; 1#1; 2#1]%Q;
                     np.array [2; 3] [0#1; 0#1; 0#1; 1#1; 1#1; 1#1]%Q;
                     np.array [2; 3] [0#1; 1#1; 2#1; 0#1; 1#1; 2#1]%Q])).
  - reflexivity.
  - reflexivity.
  - reflexivity.
  - reflexivity.
  - reflexivity.
  - reflexivity.
  - vm_compute. reflexivity.
  - discriminate.
  - repeat constructor.
Defined.

Lemma unstackable_answer_raises_witness :
  (exists msg,
      outcome (calc_with grid_from_bounding_box no_axes
                         wcs_2x3 wcs_4x5_shifted VNone (start 0))
      = (Raise (ValueError msg), 4))
  /\ (exists msg,
         outcome (calc_with grid_from_bounding_box ragged
                            wcs_2x3 wcs_4x5_shifted VNone (start 0))
         = (Raise (ValueError msg), 4)).
Proof.
  unfold calc_with. split.
  - eapply (unstackable_answer_raises _ _ _ wcs_2x3 wcs_4x5_shifted VNone (start 0)
              (res := [])).
    + reflexivity.
    + reflexivity.
    + reflexivity.
    + reflexivity.
    + reflexivity.
    + reflexivity.
    + reflexivity.
    + left. reflexivity.
  - eapply (unstackable_answer_raises _ _ _ wcs_2x3 wcs_4x5_shifted VNone (start 0)
              (res := [np.array [2; 3] [0#1; 1#1; 2#1; 0#1; 1#1; 2#1]%Q;
                       np.array [1; 1] [0%Q]])).
    + reflexivity.
    + reflexivity.
    + reflexivity.
    + reflexivity.
    + reflexivity.
    + reflexivity.
    + vm_compute. reflexivity.
    + right. do 6 eexists. repeat split; try reflexivity. left. discriminate.
Defined.

Lemma output_extent_is_never_read_witness :
  calc_counting wcs_2x3 wcs_4x5_shifted VNone (start 0)
  = calc_counting wcs_2x3 wcs_7x9_shifted VNone (start 0).
Proof.
  unfold calc_counting. apply output_extent_is_never_read.
  - reflexivity.
  - intros i a b w Hab. now rewrite Hab.
Defined.

End MoreRuns.
